(** * important-siblings: scripts that print where they were loaded from

    The repository holds copies of one script, [myscript.py], and of one class
    module, [myclass.py].  Each script prints its module name, package, file
    path and [sys.path], then builds a [MyClass] and asks it to print the same
    facts about the module that defines the class.  The copies differ only in
    the statement that imports [MyClass].

    The Python code is embedded as functions of a small state-and-exception
    monad: the state is the output written so far together with [sys.path],
    and an exception that nobody catches ends the process.  What the
    interpreter decides outside of the sources (which file a module name
    resolves to, how [repr] quotes a string) is a parameter of the embedding,
    the [Host]; a concrete POSIX host over a finite file system is given at
    the end of the definitions and is used to run the scripts on concrete
    directory layouts. *)

From Stdlib Require Import String Ascii List.
From stdpp Require Import base gmap strings list.

Open Scope string_scope.
Open Scope list_scope.

(** ** [os.path] on POSIX: [posixpath.dirname] and [posixpath.join] *)

Module Posixpath.

Definition sep : ascii := "/"%char.

(** [s.startswith('/')] *)
Definition startswith_sep (s : string) : bool :=
  match s with
  | String c _ => Ascii.eqb c sep
  | EmptyString => false
  end.

(** [s.endswith('/')] *)
Fixpoint endswith_sep (s : string) : bool :=
  match s with
  | EmptyString => false
  | String c r =>
      match r with
      | EmptyString => Ascii.eqb c sep
      | String _ _ => endswith_sep r
      end
  end.

(** ['/' in s] *)
Fixpoint contains_sep (s : string) : bool :=
  match s with
  | EmptyString => false
  | String c r => Ascii.eqb c sep || contains_sep r
  end.

(** [s == '/' * len(s)] *)
Fixpoint all_sep (s : string) : bool :=
  match s with
  | EmptyString => true
  | String c r => Ascii.eqb c sep && all_sep r
  end.

(** [s.rstrip('/')] *)
Fixpoint rstrip_sep (s : string) : string :=
  match s with
  | EmptyString => EmptyString
  | String c r =>
      match rstrip_sep r with
      | EmptyString => if Ascii.eqb c sep then EmptyString else String c EmptyString
      | String _ _ as r' => String c r'
      end
  end.

(** [p[:p.rfind('/') + 1]]: everything up to and including the last
    separator, the empty string when there is none. *)
Fixpoint head_part (p : string) : string :=
  match p with
  | EmptyString => EmptyString
  | String c r =>
      if contains_sep r then String c (head_part r)
      else if Ascii.eqb c sep then String c EmptyString
      else EmptyString
  end.

(** [posixpath.dirname]:
<<
    i = p.rfind(sep) + 1
    head = p[:i]
    if head and head != sep*len(head):
        head = head.rstrip(sep)
    return head
>> *)
Definition dirname (p : string) : string :=
  let head := head_part p in
  if negb (head =? "") && negb (all_sep head) then rstrip_sep head else head.

(** One round of the loop of [posixpath.join]:
<<
    if b.startswith(sep):              path = b
    elif not path or path.endswith(sep): path += b
    else:                              path += sep + b
>> *)
Definition join_step (path b : string) : string :=
  if startswith_sep b then b
  else if (path =? "") || endswith_sep path then path +:+ b
  else path +:+ "/" +:+ b.

(** [posixpath.join(a, *p)] *)
Definition join (a : string) (p : list string) : string :=
  fold_left join_step p a.

End Posixpath.

(** ** The interpreter state and the monad of statements *)

(** The globals of a module that the sources read: [__name__], [__package__]
    (which is [None] for a script run by path) and [__file__]. *)
Record Globals := {
  __name__ : string;
  __package__ : option string;
  __file__ : string
}.

(** The exceptions the sources can raise, each with the message Python gives
    it. *)
Inductive Exception :=
| ModuleNotFoundError (msg : string)
| ImportError (msg : string)
| TypeError (msg : string).

(** The process state the sources touch: [sys.path], and what has been written
    to standard output, one entry per call of [print]. *)
Record State := {
  sys_path : list string;
  stdout : list string
}.

Definition M (A : Type) : Type := State -> State * (Exception + A).

Global Instance M_ret : MRet M := fun A a st => (st, inr a).

Global Instance M_bind : MBind M := fun A B k m st =>
  match m st with
  | (st', inr a) => k a st'
  | (st', inl e) => (st', inl e)
  end.

Definition raise {A} (e : Exception) : M A := fun st => (st, inl e).

(** [print(s)]: one more line on standard output. *)
Definition print (s : string) : M unit :=
  fun st => ({| sys_path := sys_path st; stdout := stdout st ++ [s] |}, inr tt).

(** Reading [sys.path]. *)
Definition get_sys_path : M (list string) :=
  fun st => (st, inr (sys_path st)).

(** [sys.path.append(entry)] *)
Definition sys_path_append (entry : string) : M unit :=
  fun st => ({| sys_path := sys_path st ++ [entry]; stdout := stdout st |}, inr tt).

(** ** What the interpreter supplies *)

(** What the path finder can answer for a module name: a source file, a
    regular package (its [__init__.py] and the directory to search for
    submodules) or a namespace package (directories only). *)
Inductive ModuleSpec :=
| SourceFile (origin : string)
| RegularPackage (origin : string) (search : list string)
| NamespacePackage (search : list string).

(** [find_spec search name] is the path finder: it looks for module [name]
    in the directories [search], in order.  [repr] is [repr] on [str]. *)
Record Host := {
  find_spec : list string -> string -> option ModuleSpec;
  repr : string -> string
}.

(** [str(x)] for the values the f-strings of the sources interpolate. *)
Definition str_option (o : option string) : string :=
  match o with
  | Some s => s
  | None => "None"
  end.

(** [str] of a list of strings: the [repr] of each element, between brackets
    and separated by a comma and a space. *)
Definition str_list (h : Host) (l : list string) : string :=
  "[" +:+ String.concat ", " (map (repr h) l) +:+ "]".

(** ** myclass.py *)

Module MyClass.

(** An instance has no attributes; it knows the module whose globals the
    methods of its class read. *)
Record Instance := { defining_module : Globals }.

(** [def __init__(self): print(f"MyClass initialized")] *)
Definition __init__ (self : Instance) : M unit :=
  print "MyClass initialized".

(** [def dump(self)] *)
Definition dump (self : Instance) : M unit :=
  let g := defining_module self in
  print "myclass attributes..." ;;
  print ("Module: " +:+ __name__ g) ;;
  print ("Package: " +:+ str_option (__package__ g)) ;;
  print ("File Path: " +:+ __file__ g) ;;
  print "".

(** [MyClass()], for the class defined in the module with globals [g]: a new
    object, on which [__init__] runs. *)
Definition construct (g : Globals) : M Instance :=
  let self := {| defining_module := g |} in
  __init__ self ;;
  mret self.

End MyClass.

(** The body of myclass.py, run with globals [g].  The [class] statement
    prints nothing; the guard at the end runs only when the module is the
    program. *)
Definition myclass_py (g : Globals) : M unit :=
  if __name__ g =? "__main__" then
    print "myclass.py called directly" ;;
    mc ← MyClass.construct g;
    MyClass.dump mc
  else mret tt.

(** Modelled from the spec: myproject0/myclass.py and
    myproject6/classes/myclass.py, the class modules of the two other
    variants, are not among the sources.  The spec describes the copies as
    near-identical, so the body of whatever source file a module name resolves
    to is the body of myproject2/myclass.py. *)
Definition source_file_body (origin : string) : Globals -> M unit :=
  myclass_py.

(** ** The import statement *)

(** A dotted name below a parent; the parent of a top-level module is the
    empty string. *)
Definition qualify (parent name : string) : string :=
  if parent =? "" then name else parent +:+ "." +:+ name.

(** What [import a.b.c] leaves in [sys.modules] for the last name: a module
    that ran a source file, or a namespace package, which ran nothing. *)
Inductive Loaded :=
| LoadedSource (g : Globals)
| LoadedNamespace (name : string) (search : list string).

(** [import_module h search parent name rest] imports [parent.name.rest]:
    [name] is looked up in [search] and its file is run; the names that
    follow are looked up in the [__path__] of the package found.  A missing
    module, and a parent that is no package, raise [ModuleNotFoundError].
    Each script has one import statement for these names, so none of them is
    in [sys.modules] before it runs and the cache is left out. *)
Fixpoint import_module (h : Host) (search : list string) (parent name : string)
    (rest : list string) : M Loaded :=
  let full := qualify parent name in
  match find_spec h search name with
  | None =>
      raise (ModuleNotFoundError ("No module named '" +:+ full +:+ "'"))
  | Some (SourceFile f) =>
      let g := {| __name__ := full; __package__ := Some parent; __file__ := f |} in
      source_file_body f g ;;
      match rest with
      | [] => mret (LoadedSource g)
      | sub :: _ =>
          raise (ModuleNotFoundError
                   ("No module named '" +:+ qualify full sub +:+ "'; '" +:+ full
                    +:+ "' is not a package"))
      end
  | Some (RegularPackage f dirs) =>
      let g := {| __name__ := full; __package__ := Some full; __file__ := f |} in
      source_file_body f g ;;
      match rest with
      | [] => mret (LoadedSource g)
      | sub :: rest' => import_module h dirs full sub rest'
      end
  | Some (NamespacePackage dirs) =>
      match rest with
      | [] => mret (LoadedNamespace full dirs)
      | sub :: rest' => import_module h dirs full sub rest'
      end
  end.

(** What the name [MyClass] is bound to after the import: the class of a
    module that ran the class statement, or a module of that name. *)
Inductive Binding :=
| BoundClass (g : Globals)
| BoundModule.

(** [from name.rest import MyClass].  The module is imported from [sys.path].
    A module that ran a source file has the attribute.  A namespace package
    has none: Python then imports the submodule [MyClass] from the package's
    directories and binds that module, and raises [ImportError] when there is
    no such submodule. *)
Definition from_import_MyClass (h : Host) (name : string) (rest : list string)
    : M Binding :=
  path ← get_sys_path;
  m ← import_module h path "" name rest;
  match m with
  | LoadedSource g => mret (BoundClass g)
  | LoadedNamespace full dirs =>
      match find_spec h dirs "MyClass" with
      | Some _ =>
          _ ← import_module h dirs full "MyClass" [];
          mret BoundModule
      | None =>
          raise (ImportError ("cannot import name 'MyClass' from '" +:+ full
                              +:+ "' (unknown location)"))
      end
  end.

(** The call [MyClass()] on what the import bound. *)
Definition call_MyClass (b : Binding) : M MyClass.Instance :=
  match b with
  | BoundClass g => MyClass.construct g
  | BoundModule => raise (TypeError "'module' object is not callable")
  end.

(** ** myscript.py *)

(** [def main()]: the same text in the three scripts (lines 6 to 15 of
    myproject0/myscript.py and myproject2/myscript.py, lines 7 to 16 of
    myproject6/scripts/myscript.py).  [g] holds the globals of the script,
    [MyClass] what its import statement bound. *)
Definition main (h : Host) (g : Globals) (MyClass : Binding) : M unit :=
  print "myscript attributes..." ;;
  print ("Module: " +:+ __name__ g) ;;
  print ("Package: " +:+ str_option (__package__ g)) ;;
  print ("File Path: " +:+ __file__ g) ;;
  path ← get_sys_path;
  print ("sys.path: " +:+ str_list h path) ;;
  print "" ;;
  mc ← call_MyClass MyClass;
  MyClass.dump mc.

(** The guard that ends each script. *)
Definition if_main (h : Host) (g : Globals) (MyClass : Binding) : M unit :=
  if __name__ g =? "__main__" then
    print "myscript.py called directly" ;;
    main h g MyClass
  else mret tt.

(** myproject0/myscript.py: [from myclass import MyClass]; [import sys], which
    always succeeds and prints nothing. *)
Definition myproject0_myscript (h : Host) (g : Globals) : M unit :=
  MyClass ← from_import_MyClass h "myclass" [];
  if_main h g MyClass.

(** myproject2/myscript.py: [from myproject2.myclass import MyClass]. *)
Definition myproject2_myscript (h : Host) (g : Globals) : M unit :=
  MyClass ← from_import_MyClass h "myproject2" ["myclass"];
  if_main h g MyClass.

(** The entry that myproject6/scripts/myscript.py adds to [sys.path]:
    [os.path.join(os.path.dirname(__file__), '..', 'classes')]. *)
Definition classes_dir (g : Globals) : string :=
  Posixpath.join (Posixpath.dirname (__file__ g)) [".."; "classes"].

(** myproject6/scripts/myscript.py: [import sys, os], the append to
    [sys.path], then [from myclass import MyClass]. *)
Definition myproject6_myscript (h : Host) (g : Globals) : M unit :=
  sys_path_append (classes_dir g) ;;
  MyClass ← from_import_MyClass h "myclass" [];
  if_main h g MyClass.

Inductive Variant := Myproject0 | Myproject2 | Myproject6.

Definition myscript (v : Variant) : Host -> Globals -> M unit :=
  match v with
  | Myproject0 => myproject0_myscript
  | Myproject2 => myproject2_myscript
  | Myproject6 => myproject6_myscript
  end.

(** ** Running a file as the program *)

(** How the interpreter was started: the file it runs as [__main__], the
    [__package__] it gives that module and the [sys.path] it starts with. *)
Record Launch := {
  main_file : string;
  main_package : option string;
  initial_path : list string
}.

(** [python script]: [script] is the absolute path of the file,
    [__package__] is [None] and the directory of the script comes first on
    [sys.path], before the directories [site] of the installation. *)
Definition script_launch (script : string) (site : list string) : Launch :=
  {| main_file := script;
     main_package := None;
     initial_path := Posixpath.dirname script :: site |}.

(** [python -m package.module] from directory [cwd]: the module was found
    in [file], [__package__] is its package and [cwd] comes first on
    [sys.path]. *)
Definition module_launch (cwd file package : string) (site : list string) : Launch :=
  {| main_file := file;
     main_package := Some package;
     initial_path := cwd :: site |}.

Definition main_globals (l : Launch) : Globals :=
  {| __name__ := "__main__";
     __package__ := main_package l;
     __file__ := main_file l |}.

Definition initial_state (l : Launch) : State :=
  {| sys_path := initial_path l; stdout := [] |}.

(** The last line of the traceback of an exception. *)
Definition exception_line (e : Exception) : string :=
  match e with
  | ModuleNotFoundError msg => "ModuleNotFoundError: " +:+ msg
  | ImportError msg => "ImportError: " +:+ msg
  | TypeError msg => "TypeError: " +:+ msg
  end.

(** What the interpreter writes to standard error for an exception nobody
    caught: the first and the last line of the traceback (the lines in
    between name the frames). *)
Definition traceback (e : Exception) : list string :=
  ["Traceback (most recent call last):"; exception_line e].

(** What a process leaves behind. *)
Record Result := {
  exit_status : nat;
  output : list string;
  errors : list string;
  final_path : list string
}.

(** Running [body] as the program: exit status 0 when it runs to its end,
    the traceback and exit status 1 when it raises. *)
Definition run (body : Globals -> M unit) (l : Launch) : Result :=
  match body (main_globals l) (initial_state l) with
  | (st, inr _) =>
      {| exit_status := 0; output := stdout st; errors := [];
         final_path := sys_path st |}
  | (st, inl e) =>
      {| exit_status := 1; output := stdout st; errors := traceback e;
         final_path := sys_path st |}
  end.

(** The entry point of a variant, and the class module run directly. *)
Definition run_myscript (v : Variant) (h : Host) (l : Launch) : Result :=
  run (myscript v h) l.

Definition run_myclass (l : Launch) : Result :=
  run myclass_py l.

(** The text on standard output: every [print] ends its line. *)
Fixpoint render (lines : list string) : string :=
  match lines with
  | [] => ""
  | l :: rest => l +:+ String "010"%char (render rest)
  end.

(** [s] holds [a] and, further on, [b]. *)
Definition occurs_then (a b s : string) : Prop :=
  exists pre mid post, s = pre +:+ a +:+ mid +:+ b +:+ post.

(** ** The words of the specification *)

(** The attribute dump of the script: the six lines [main] prints before it
    builds the object, for a script with globals [g] under search path
    [path]. *)
Definition script_block (h : Host) (g : Globals) (path : list string) : list string :=
  ["myscript attributes...";
   "Module: " +:+ __name__ g;
   "Package: " +:+ str_option (__package__ g);
   "File Path: " +:+ __file__ g;
   "sys.path: " +:+ str_list h path;
   ""].

(** The attribute dump of the class defined in the module with globals
    [g]. *)
Definition class_block (g : Globals) : list string :=
  ["myclass attributes...";
   "Module: " +:+ __name__ g;
   "Package: " +:+ str_option (__package__ g);
   "File Path: " +:+ __file__ g;
   ""].

(** The module each variant imports [MyClass] from, as a first name and the
    names after the dots. *)
Definition dependency (v : Variant) : string * list string :=
  match v with
  | Myproject0 => ("myclass", [])
  | Myproject2 => ("myproject2", ["myclass"])
  | Myproject6 => ("myclass", [])
  end.

(** [sys.path] when the import statement of a variant runs. *)
Definition import_path (v : Variant) (l : Launch) : list string :=
  match v with
  | Myproject6 => initial_path l ++ [classes_dir (main_globals l)]
  | _ => initial_path l
  end.

(** Where a dotted module name is found from the directories [search], if it
    is: the finder is asked for the first name, and for each further name in
    the directories of the package found before it. *)
Fixpoint locate (h : Host) (search : list string) (name : string)
    (rest : list string) : option ModuleSpec :=
  match find_spec h search name, rest with
  | None, _ => None
  | Some s, [] => Some s
  | Some (SourceFile _), _ :: _ => None
  | Some (RegularPackage _ dirs), sub :: rest' => locate h dirs sub rest'
  | Some (NamespacePackage dirs), sub :: rest' => locate h dirs sub rest'
  end.

(** The dependency of variant [v], as the run started by [l] locates it. *)
Definition locate_dependency (h : Host) (v : Variant) (l : Launch)
    : option ModuleSpec :=
  locate h (import_path v l) (fst (dependency v)) (snd (dependency v)).

(** The globals of the dependency of [v] once loaded from source file [f]. *)
Definition dependency_globals (v : Variant) (f : string) : Globals :=
  match v with
  | Myproject2 =>
      {| __name__ := "myproject2.myclass"; __package__ := Some "myproject2";
         __file__ := f |}
  | _ => {| __name__ := "myclass"; __package__ := Some ""; __file__ := f |}
  end.

(** The import statement of variant [v]. *)
Definition import_dependency (h : Host) (v : Variant) : M Binding :=
  from_import_MyClass h (fst (dependency v)) (snd (dependency v)).

(** The three ways a run of a script can go, by what its import statement
    does under the search path of that moment. *)
Definition outcome (v : Variant) (h : Host) (l : Launch) : Result :=
  let path := import_path v l in
  let g := main_globals l in
  match snd (import_dependency h v {| sys_path := path; stdout := [] |}) with
  | inr (BoundClass c) =>
      {| exit_status := 0;
         output := "myscript.py called directly"
                     :: script_block h g path
                     ++ "MyClass initialized" :: class_block c;
         errors := [];
         final_path := path |}
  | inr BoundModule =>
      {| exit_status := 1;
         output := "myscript.py called directly" :: script_block h g path;
         errors := traceback (TypeError "'module' object is not callable");
         final_path := path |}
  | inl e =>
      {| exit_status := 1; output := []; errors := traceback e;
         final_path := path |}
  end.

(** ** A POSIX host: a file system without links and the path-based finder *)

Module PosixHost.

Inductive Node := Directory | RegularFile.

(** A file system maps the absolute path of a file or directory, as the list
    of its components, to what is there; the root is always a directory. *)
Abbreviation FileSystem := (gmap (list string) Node).

(** The components of a path, empty ones included. *)
Fixpoint split (p : string) : list string :=
  match p with
  | EmptyString => [EmptyString]
  | String c r =>
      if Ascii.eqb c Posixpath.sep then EmptyString :: split r
      else match split r with
           | [] => [String c EmptyString]
           | x :: xs => String c x :: xs
           end
  end.

Definition is_directory (fs : FileSystem) (at_ : list string) : bool :=
  match at_ with
  | [] => true
  | _ :: _ => match fs !! at_ with Some Directory => true | _ => false end
  end.

(** One component of path resolution. *)
Definition enter (cur : list string) (c : string) : list string :=
  if (c =? "") || (c =? ".") then cur
  else if c =? ".." then removelast cur
  else cur ++ [c].

(** Path resolution: every component is entered from a directory. *)
Fixpoint walk (fs : FileSystem) (cur : list string) (comps : list string)
    : option (list string) :=
  match comps with
  | [] => Some cur
  | c :: rest => if is_directory fs cur then walk fs (enter cur c) rest else None
  end.

(** [stat]: what the path [p] names for a process whose working directory is
    [cwd]. *)
Definition stat (fs : FileSystem) (cwd : list string) (p : string) : option Node :=
  if p =? "" then None
  else
    match walk fs (if Posixpath.startswith_sep p then [] else cwd) (split p) with
    | Some [] => Some Directory
    | Some (c :: cs) => fs !! (c :: cs)
    | None => None
    end.

Definition isfile (fs : FileSystem) (cwd : list string) (p : string) : bool :=
  match stat fs cwd p with Some RegularFile => true | _ => false end.

Definition isdir (fs : FileSystem) (cwd : list string) (p : string) : bool :=
  match stat fs cwd p with Some Directory => true | _ => false end.

(** [importlib]'s [_path_join] of a directory and a name, neither empty. *)
Definition path_join (dir name : string) : string :=
  Posixpath.rstrip_sep dir +:+ "/" +:+ Posixpath.rstrip_sep name.

(** [os.getcwd()] *)
Definition getcwd (cwd : list string) : string :=
  "/" +:+ String.concat "/" cwd.

(** What the finder of one directory answers. *)
Inductive Found :=
| FoundSpec (s : ModuleSpec)
| FoundPortion (dir : string)
| NotHere.

(** [FileFinder.find_spec] for source files: a directory with an
    [__init__.py] is a regular package, else [name.py] is a module, else a
    directory [name] is a portion of a namespace package. *)
Definition file_finder (fs : FileSystem) (cwd : list string) (entry name : string)
    : Found :=
  let base := path_join entry name in
  let init := path_join base "__init__.py" in
  let source := path_join entry (name +:+ ".py") in
  if isfile fs cwd init then FoundSpec (RegularPackage init [base])
  else if isfile fs cwd source then FoundSpec (SourceFile source)
  else if isdir fs cwd base then FoundPortion base
  else NotHere.

(** [PathFinder.find_spec]: the entries are tried in order, the empty entry
    stands for the working directory and an entry that is no directory is
    skipped; portions of a namespace package are collected until a module or
    a regular package is found. *)
Fixpoint path_finder (fs : FileSystem) (cwd : list string) (portions : list string)
    (search : list string) (name : string) : option ModuleSpec :=
  match search with
  | [] =>
      match portions with
      | [] => None
      | _ :: _ => Some (NamespacePackage portions)
      end
  | e :: rest =>
      let entry := if e =? "" then getcwd cwd else e in
      if isdir fs cwd entry then
        match file_finder fs cwd entry name with
        | FoundSpec s => Some s
        | FoundPortion d => path_finder fs cwd (portions ++ [d]) rest name
        | NotHere => path_finder fs cwd portions rest name
        end
      else path_finder fs cwd portions rest name
  end.

(** [repr] of a string of printable ASCII characters other than quotes and
    backslashes. *)
Definition quote (s : string) : string := "'" +:+ s +:+ "'".

Definition host (fs : FileSystem) (cwd : list string) : Host :=
  {| find_spec := path_finder fs cwd []; repr := quote |}.

(** A directory and the files in it. *)
Definition directory (at_ : list string) (files : list string)
    : list (list string * Node) :=
  (at_, Directory) :: map (fun f => (at_ ++ [f], RegularFile)) files.

(** A checkout of the repository in [/repo], next to the directory of the
    installation: the four source files, and the class modules of myproject0
    and myproject6 at the places their scripts import them from. *)
Definition checkout : FileSystem :=
  list_to_map
    (directory ["usr"] [] ++
     directory ["usr"; "lib"] [] ++
     directory ["usr"; "lib"; "python3"] [] ++
     directory ["repo"] [] ++
     directory ["repo"; "myproject0"] ["myscript.py"; "myclass.py"] ++
     directory ["repo"; "myproject2"] ["myscript.py"; "myclass.py"] ++
     directory ["repo"; "myproject6"] [] ++
     directory ["repo"; "myproject6"; "scripts"] ["myscript.py"] ++
     directory ["repo"; "myproject6"; "classes"] ["myclass.py"]).

Definition site : list string := ["/usr/lib/python3"].

(** The interpreter started in [/repo]. *)
Definition in_repo : Host := host checkout ["repo"].

(** Directories [/work] in which a copy of myproject0/myscript.py or of
    myproject2/myscript.py finds something else than the class module under
    the name it imports: a directory [myclass] and nothing in it; a directory
    [myclass] that holds a file [MyClass.py]; a file [myproject2.py]. *)
Definition empty_directory_named_myclass : FileSystem :=
  list_to_map
    (directory ["usr"] [] ++ directory ["usr"; "lib"] [] ++
     directory ["usr"; "lib"; "python3"] [] ++
     directory ["work"] ["myscript.py"] ++
     directory ["work"; "myclass"] []).



End PosixHost.

(** * Properties *)

(** ** Statements run one after the other *)

Ltac exec :=
  unfold mbind, M_bind, mret, M_ret, print, get_sys_path, raise, sys_path_append;
  simpl.

(** Case analysis on every answer of the finder the goal depends on. *)
Ltac cases_find :=
  repeat match goal with
         | |- context [match find_spec ?h ?d ?n with _ => _ end] =>
             let E := fresh "Hfind" in
             destruct (find_spec h d n) as [[?|? ?|?]|] eqn:E; simpl
         | H : context [match find_spec ?h ?d ?n with _ => _ end] |- _ =>
             let E := fresh "Hfind" in
             destruct (find_spec h d n) as [[?|? ?|?]|] eqn:E; simpl in H
         end.

Lemma dump_runs (self : MyClass.Instance) (st : State) :
  MyClass.dump self st =
  ({| sys_path := sys_path st;
      stdout := stdout st ++ class_block (MyClass.defining_module self) |}, inr tt).
Proof.
  unfold MyClass.dump, class_block. exec.
  repeat rewrite <- app_assoc. reflexivity.
Qed.

Lemma construct_runs (g : Globals) (st : State) :
  MyClass.construct g st =
  ({| sys_path := sys_path st; stdout := stdout st ++ ["MyClass initialized"] |},
   inr {| MyClass.defining_module := g |}).
Proof. reflexivity. Qed.

Lemma main_with_class (h : Host) (g c : Globals) (st : State) :
  main h g (BoundClass c) st =
  ({| sys_path := sys_path st;
      stdout := stdout st ++ script_block h g (sys_path st)
                  ++ "MyClass initialized" :: class_block c |}, inr tt).
Proof.
  unfold main, call_MyClass, script_block. exec.
  rewrite dump_runs. simpl.
  repeat rewrite <- app_assoc. reflexivity.
Qed.

Lemma main_with_module (h : Host) (g : Globals) (st : State) :
  main h g BoundModule st =
  ({| sys_path := sys_path st;
      stdout := stdout st ++ script_block h g (sys_path st) |},
   inl (TypeError "'module' object is not callable")).
Proof.
  unfold main, call_MyClass, script_block. exec.
  repeat rewrite <- app_assoc. reflexivity.
Qed.

(** ** The import statement reads the state and leaves it as it is *)

Lemma import_keeps_state (h : Host) (v : Variant) (st : State) :
  fst (import_dependency h v st) = st.
Proof.
  unfold import_dependency, from_import_MyClass.
  destruct v; exec.
  all: cases_find; auto.
Qed.

(** When the dependency is located as a source file, the import binds the
    class of that file. *)
Lemma import_located (h : Host) (v : Variant) (st : State) (f : string) :
  locate h (sys_path st) (fst (dependency v)) (snd (dependency v))
    = Some (SourceFile f) ->
  import_dependency h v st = (st, inr (BoundClass (dependency_globals v f))).
Proof.
  unfold import_dependency, from_import_MyClass.
  destruct v; simpl; intros Hloc; exec.
  all: cases_find; try discriminate.
  all: injection Hloc as ->; reflexivity.
Qed.

(** When it is not located, the import raises [ModuleNotFoundError] and the
    message names the missing module. *)
Lemma import_unlocated (h : Host) (v : Variant) (st : State) :
  locate h (sys_path st) (fst (dependency v)) (snd (dependency v)) = None ->
  exists m,
    import_dependency h v st
    = (st, inl (ModuleNotFoundError ("No module named '" +:+ m))).
Proof.
  unfold import_dependency, from_import_MyClass.
  destruct v; simpl; intros Hloc; exec.
  all: cases_find; try discriminate; eauto.
Qed.

Lemma if_main_runs (h : Host) (l : Launch) (b : Binding) (st : State) :
  if_main h (main_globals l) b st
  = (print "myscript.py called directly" ;; main h (main_globals l) b) st.
Proof. reflexivity. Qed.

Lemma run_myscript_outcome (v : Variant) (h : Host) (l : Launch) :
  run_myscript v h l = outcome v h l.
Proof.
  unfold run_myscript, run, outcome.
  pose proof (import_keeps_state h v
                {| sys_path := import_path v l; stdout := [] |}) as Hst.
  assert (Hrun : myscript v h (main_globals l) (initial_state l)
                 = (MyClass ← import_dependency h v;
                    if_main h (main_globals l) MyClass)
                     {| sys_path := import_path v l; stdout := [] |})
    by (destruct v; reflexivity).
  rewrite Hrun. unfold mbind at 1. unfold M_bind.
  destruct (import_dependency h v _) as [st' [e|b]]; simpl in Hst; subst st'.
  - reflexivity.
  - rewrite if_main_runs. unfold mbind, M_bind. simpl.
    destruct b as [c|].
    + rewrite main_with_class. reflexivity.
    + rewrite main_with_module. reflexivity.
Qed.

(** A run whose dependency is located as a source file. *)
Lemma located_outcome (v : Variant) (h : Host) (l : Launch) (f : string) :
  locate_dependency h v l = Some (SourceFile f) ->
  run_myscript v h l
  = {| exit_status := 0;
       output := "myscript.py called directly"
                   :: script_block h (main_globals l) (import_path v l)
                   ++ "MyClass initialized" :: class_block (dependency_globals v f);
       errors := [];
       final_path := import_path v l |}.
Proof.
  intros Hloc. rewrite run_myscript_outcome. unfold outcome.
  rewrite (import_located h v {| sys_path := import_path v l; stdout := [] |} f Hloc).
  reflexivity.
Qed.

(** ** Paths *)

Example dirname_of_script :
  Posixpath.dirname "/repo/myproject6/scripts/myscript.py" = "/repo/myproject6/scripts".
Proof. reflexivity. Qed.

Example dirname_of_bare_name : Posixpath.dirname "myscript.py" = "".
Proof. reflexivity. Qed.

Example dirname_below_root : Posixpath.dirname "/myscript.py" = "/".
Proof. reflexivity. Qed.

Example join_onto_empty : Posixpath.join "" [".."; "classes"] = "../classes".
Proof. reflexivity. Qed.

Example join_restarts_at_absolute : Posixpath.join "/a" ["b"; "/c"; "d"] = "/c/d".
Proof. reflexivity. Qed.

Lemma append_assoc (a b c : string) : (a +:+ b) +:+ c = a +:+ (b +:+ c).
Proof.
  induction a as [|x a IH]; [reflexivity |].
  change (String x ((a +:+ b) +:+ c) = String x (a +:+ (b +:+ c))).
  now rewrite IH.
Qed.

Lemma endswith_sep_append (a : string) (c : ascii) (b : string) :
  Posixpath.endswith_sep (a +:+ String c b) = Posixpath.endswith_sep (String c b).
Proof.
  induction a as [|x a IH]; [reflexivity |].
  change (String x a +:+ String c b) with (String x (a +:+ String c b)).
  destruct a as [|y a]; exact IH.
Qed.

Lemma append_nonempty (a : string) (c : ascii) (b : string) :
  (a +:+ String c b =? "") = false.
Proof. destruct a; reflexivity. Qed.

(** Whatever the directory of the script, the entry myproject6 appends names
    the directory 'classes' beside it: the entry ends in '../classes'. *)
Lemma classes_dir_shape (g : Globals) :
  exists pre, classes_dir g = pre +:+ "../classes".
Proof.
  unfold classes_dir, Posixpath.join, Posixpath.join_step. simpl fold_left.
  set (d := Posixpath.dirname (__file__ g)).
  change (Posixpath.startswith_sep "..") with false.
  change (Posixpath.startswith_sep "classes") with false.
  cbv iota.
  destruct ((d =? "") || Posixpath.endswith_sep d).
  - rewrite append_nonempty, endswith_sep_append.
    exists d. now rewrite !append_assoc.
  - change (d +:+ "/" +:+ "..") with (d +:+ "/..").
    rewrite append_nonempty, endswith_sep_append.
    exists (d +:+ "/"). now rewrite !append_assoc.
Qed.

(** ** Text *)

Lemma render_app (xs ys : list string) :
  render (xs ++ ys) = render xs +:+ render ys.
Proof.
  induction xs as [|x xs IH]; [reflexivity |].
  change (x +:+ String "010"%char (render (xs ++ ys))
          = (x +:+ (String "010"%char "" +:+ render xs)) +:+ render ys).
  rewrite IH, !append_assoc. reflexivity.
Qed.

Lemma render_cons (x : string) (xs : list string) :
  render (x :: xs) = x +:+ (String "010"%char "" +:+ render xs).
Proof. reflexivity. Qed.

(** A line, and a later line, of the output occur in that order in its
    text. *)
Lemma occurs_then_render (pre mid post : list string) (a b : string) :
  occurs_then a b (render (pre ++ a :: mid ++ b :: post)).
Proof.
  exists (render pre), (String "010"%char "" +:+ render mid),
         (String "010"%char "" +:+ render post).
  rewrite render_app, render_cons, render_app, render_cons.
  now rewrite !append_assoc.
Qed.

(** [sep.join] of a list that ends in [e] ends in [e]. *)
Lemma concat_last (sep e : string) (xs : list string) :
  exists pre, String.concat sep (xs ++ [e]) = pre +:+ e.
Proof.
  induction xs as [|x xs [pre IH]].
  - exists "". reflexivity.
  - simpl app. destruct (xs ++ [e]) as [|y ys] eqn:E.
    + destruct xs; discriminate.
    + exists (x +:+ sep +:+ pre).
      change (String.concat sep (x :: y :: ys))
        with (x +:+ sep +:+ String.concat sep (y :: ys)).
      rewrite IH, !append_assoc. reflexivity.
Qed.

(** ** Runs of the entry point *)

(** C1: when the module that provides [MyClass] cannot be located on the
    search path, the run exits with a non-zero status, standard error carries
    a [ModuleNotFoundError] line that names a missing module, and nothing at
    all is written to standard output: neither the script block nor the class
    block. *)
Theorem unlocated_dependency_aborts (v : Variant) (h : Host) (l : Launch) :
  locate_dependency h v l = None ->
  exit_status (run_myscript v h l) <> 0
  /\ (exists m, In ("ModuleNotFoundError: No module named '" +:+ m)
                  (errors (run_myscript v h l)))
  /\ output (run_myscript v h l) = [].
Proof.
  intros Hloc. rewrite run_myscript_outcome. unfold outcome.
  destruct (import_unlocated h v {| sys_path := import_path v l; stdout := [] |} Hloc)
    as [m Hm].
  rewrite Hm. simpl. repeat split.
  - discriminate.
  - exists m. right. left. reflexivity.
Qed.

Lemma unlocated_dependency_aborts_witness :
  locate_dependency PosixHost.in_repo Myproject2
    (script_launch "/repo/myproject2/myscript.py" PosixHost.site) = None
  /\ (exit_status (run_myscript Myproject2 PosixHost.in_repo
                     (script_launch "/repo/myproject2/myscript.py" PosixHost.site)) <> 0
      /\ (exists m, In ("ModuleNotFoundError: No module named '" +:+ m)
                      (errors (run_myscript Myproject2 PosixHost.in_repo
                         (script_launch "/repo/myproject2/myscript.py" PosixHost.site))))
      /\ output (run_myscript Myproject2 PosixHost.in_repo
                   (script_launch "/repo/myproject2/myscript.py" PosixHost.site)) = []).
Proof.
  split.
  - vm_compute. reflexivity.
  - apply (unlocated_dependency_aborts Myproject2 PosixHost.in_repo
             (script_launch "/repo/myproject2/myscript.py" PosixHost.site)).
    vm_compute. reflexivity.
Defined.

(** C2, as stated, fails: myproject2/myscript.py run by path from a checkout
    has its own directory first on the search path, and no [myproject2]
    inside it; the run exits with status 1 and prints no block. *)
Lemma myproject2_by_path_fails :
  initial_path (script_launch "/repo/myproject2/myscript.py" PosixHost.site)
    = ["/repo/myproject2"; "/usr/lib/python3"]
  /\ exit_status (run_myscript Myproject2 PosixHost.in_repo
                    (script_launch "/repo/myproject2/myscript.py" PosixHost.site)) = 1
  /\ output (run_myscript Myproject2 PosixHost.in_repo
               (script_launch "/repo/myproject2/myscript.py" PosixHost.site)) = []
  /\ errors (run_myscript Myproject2 PosixHost.in_repo
               (script_launch "/repo/myproject2/myscript.py" PosixHost.site))
     = ["Traceback (most recent call last):";
        "ModuleNotFoundError: No module named 'myproject2'"].
Proof. vm_compute. repeat split. Qed.

(** C2, amended: every run in which the dependency is located as a source
    file exits with status 0, and its output is the line of the guard, the
    script block, the creation notice and the class block, in this order. *)
Theorem located_dependency_runs (v : Variant) (h : Host) (l : Launch) (f : string) :
  locate_dependency h v l = Some (SourceFile f) ->
  exit_status (run_myscript v h l) = 0
  /\ output (run_myscript v h l)
     = ["myscript.py called directly"]
         ++ script_block h (main_globals l) (import_path v l)
         ++ ["MyClass initialized"]
         ++ class_block (dependency_globals v f).
Proof.
  intros Hloc. rewrite (located_outcome v h l f Hloc). split; reflexivity.
Qed.

Lemma located_dependency_runs_witness :
  locate_dependency PosixHost.in_repo Myproject0
    (script_launch "/repo/myproject0/myscript.py" PosixHost.site)
    = Some (SourceFile "/repo/myproject0/myclass.py")
  /\ (exit_status (run_myscript Myproject0 PosixHost.in_repo
                     (script_launch "/repo/myproject0/myscript.py" PosixHost.site)) = 0
      /\ output (run_myscript Myproject0 PosixHost.in_repo
                   (script_launch "/repo/myproject0/myscript.py" PosixHost.site))
         = ["myscript.py called directly"]
             ++ script_block PosixHost.in_repo
                  (main_globals (script_launch "/repo/myproject0/myscript.py"
                                   PosixHost.site))
                  (import_path Myproject0
                     (script_launch "/repo/myproject0/myscript.py" PosixHost.site))
             ++ ["MyClass initialized"]
             ++ class_block
                  (dependency_globals Myproject0 "/repo/myproject0/myclass.py")).
Proof.
  split.
  - vm_compute. reflexivity.
  - apply (located_dependency_runs Myproject0 PosixHost.in_repo
             (script_launch "/repo/myproject0/myscript.py" PosixHost.site)
             "/repo/myproject0/myclass.py").
    vm_compute. reflexivity.
Defined.

(** The default search path of a checkout locates the dependency of
    myproject6 run by path, and that of myproject2 run as a module of its
    package from the root of the checkout. *)
Example myproject6_by_path_located :
  locate_dependency PosixHost.in_repo Myproject6
    (script_launch "/repo/myproject6/scripts/myscript.py" PosixHost.site)
  = Some (SourceFile "/repo/myproject6/scripts/../classes/myclass.py").
Proof. vm_compute. reflexivity. Qed.

Example myproject2_as_module_located :
  locate_dependency PosixHost.in_repo Myproject2
    (module_launch "/repo" "/repo/myproject2/myscript.py" "myproject2" PosixHost.site)
  = Some (SourceFile "/repo/myproject2/myclass.py").
Proof. vm_compute. reflexivity. Qed.

(** C3: a run that exits with status 0 has written the text
    "myscript attributes..." and, further on, "myclass attributes...". *)
Theorem successful_run_has_both_headers (v : Variant) (h : Host) (l : Launch) :
  exit_status (run_myscript v h l) = 0 ->
  occurs_then "myscript attributes..." "myclass attributes..."
    (render (output (run_myscript v h l))).
Proof.
  rewrite run_myscript_outcome. unfold outcome.
  destruct (snd (import_dependency h v _)) as [e|[c|]]; simpl; try discriminate.
  intros _.
  apply (occurs_then_render ["myscript.py called directly"]
           (tl (script_block h (main_globals l) (import_path v l))
              ++ ["MyClass initialized"])
           (tl (class_block c))).
Qed.

Lemma successful_run_has_both_headers_witness :
  occurs_then "myscript attributes..." "myclass attributes..."
    (render (output (run_myscript Myproject6 PosixHost.in_repo
       (script_launch "/repo/myproject6/scripts/myscript.py" PosixHost.site)))).
Proof.
  apply (successful_run_has_both_headers Myproject6 PosixHost.in_repo
           (script_launch "/repo/myproject6/scripts/myscript.py" PosixHost.site)).
  vm_compute. reflexivity.
Defined.

(** ** The report and the object *)

(** C4: a report is a header line, then the module name, the package name
    and the file path, in this order, and an empty line.  [main] prints the
    search path after the file path; no line that [MyClass.dump] prints is a
    search-path line. *)
Theorem report_lines (h : Host) (g : Globals) (b : Binding)
    (self : MyClass.Instance) (st : State) :
  (exists tail,
     stdout (fst (main h g b st))
     = stdout st
         ++ ["myscript attributes...";
             "Module: " +:+ __name__ g;
             "Package: " +:+ str_option (__package__ g);
             "File Path: " +:+ __file__ g;
             "sys.path: " +:+ str_list h (sys_path st);
             ""]
         ++ tail)
  /\ stdout (fst (MyClass.dump self st))
     = stdout st
         ++ ["myclass attributes...";
             "Module: " +:+ __name__ (MyClass.defining_module self);
             "Package: " +:+ str_option (__package__ (MyClass.defining_module self));
             "File Path: " +:+ __file__ (MyClass.defining_module self);
             ""]
  /\ Forall (fun line => String.prefix "sys.path: " line = false)
       (skipn (length (stdout st)) (stdout (fst (MyClass.dump self st)))).
Proof.
  split; [| split].
  - destruct b as [c|].
    + rewrite main_with_class.
      exists ("MyClass initialized" :: class_block c). reflexivity.
    + rewrite main_with_module.
      exists []. reflexivity.
  - rewrite dump_runs. reflexivity.
  - rewrite dump_runs. simpl.
    rewrite skipn_app, skipn_all, Nat.sub_diag. simpl.
    repeat constructor.
Qed.

(** C5, as stated, fails: a script run by path has no package, its
    [__package__] is [None], and the package line of its block reads
    "Package: None", not "Package: " with an empty name. *)
Lemma script_by_path_prints_None :
  __package__ (main_globals (script_launch "/repo/myproject0/myscript.py"
                               PosixHost.site)) = None
  /\ output (run_myscript Myproject0 PosixHost.in_repo
               (script_launch "/repo/myproject0/myscript.py" PosixHost.site)) !! 3
     = Some "Package: None"
  /\ "Package: None" <> "Package: ".
Proof. vm_compute. repeat split. discriminate. Qed.

(** C5, amended: of the units without a package, the module imported from
    the top of the search path has the empty string as its [__package__] and
    its report shows an empty package name; the file run by path as the
    program, script or class module, has [None] and its report shows the
    text None. *)
Theorem package_line_without_package (v : Variant) (h : Host)
    (script : string) (site : list string) (f : string) :
  v <> Myproject2 ->
  locate_dependency h v (script_launch script site) = Some (SourceFile f) ->
  output (run_myscript v h (script_launch script site)) !! 3
    = Some "Package: None"
  /\ output (run_myscript v h (script_launch script site)) !! 10
     = Some "Package: "
  /\ output (run_myclass (script_launch script site)) !! 4
     = Some "Package: None".
Proof.
  intros Hv Hloc.
  rewrite (located_outcome v h _ f Hloc).
  destruct v; [| congruence |]; repeat split.
Qed.

Lemma package_line_without_package_witness :
  Myproject6 <> Myproject2
  /\ locate_dependency PosixHost.in_repo Myproject6
       (script_launch "/repo/myproject6/scripts/myscript.py" PosixHost.site)
     = Some (SourceFile "/repo/myproject6/scripts/../classes/myclass.py")
  /\ (output (run_myscript Myproject6 PosixHost.in_repo
                (script_launch "/repo/myproject6/scripts/myscript.py"
                   PosixHost.site)) !! 3
      = Some "Package: None"
      /\ output (run_myscript Myproject6 PosixHost.in_repo
                   (script_launch "/repo/myproject6/scripts/myscript.py"
                      PosixHost.site)) !! 10
         = Some "Package: "
      /\ output (run_myclass
                   (script_launch "/repo/myproject6/scripts/myscript.py"
                      PosixHost.site)) !! 4
         = Some "Package: None").
Proof.
  split; [discriminate |]. split; [vm_compute; reflexivity |].
  apply (package_line_without_package Myproject6 PosixHost.in_repo
           "/repo/myproject6/scripts/myscript.py" PosixHost.site
           "/repo/myproject6/scripts/../classes/myclass.py").
  - discriminate.
  - vm_compute. reflexivity.
Defined.

(** C6: building a [MyClass] cannot fail, writes exactly one line, the
    creation notice, and changes nothing else; whatever the new object
    reports comes after that line. *)
Theorem construct_notice (g : Globals) (st : State) :
  MyClass.construct g st
  = ({| sys_path := sys_path st; stdout := stdout st ++ ["MyClass initialized"] |},
     inr {| MyClass.defining_module := g |})
  /\ stdout (fst ((mc ← MyClass.construct g; MyClass.dump mc) st))
     = stdout st ++ ["MyClass initialized"] ++ class_block g.
Proof.
  split; [reflexivity |].
  unfold mbind, M_bind. rewrite construct_runs, dump_runs. simpl.
  now rewrite <- app_assoc.
Qed.

(** C7: two reports of one object, one after the other, write the same block
    twice, raise nothing and leave the search path alone. *)
Theorem dump_twice (self : MyClass.Instance) (st : State) :
  (MyClass.dump self ;; MyClass.dump self) st
  = ({| sys_path := sys_path st;
        stdout := stdout st
                    ++ class_block (MyClass.defining_module self)
                    ++ class_block (MyClass.defining_module self) |},
     inr tt).
Proof.
  unfold mbind, M_bind. rewrite !dump_runs. simpl.
  now rewrite <- app_assoc.
Qed.

(** ** How a run ends, and what it does to the search path *)

Lemma import_raises (h : Host) (v : Variant) (st : State) (e : Exception) :
  snd (import_dependency h v st) = inl e ->
  (exists m, e = ModuleNotFoundError m) \/ (exists m, e = ImportError m).
Proof.
  unfold import_dependency, from_import_MyClass.
  destruct v; exec.
  all: cases_find; intros He; inversion He; eauto.
Qed.

(** C8, as stated, fails: myproject0/myscript.py run as a module of the
    package [myproject0] from the root of a checkout does not find
    [myclass] and ends with exit status 1 and a traceback, not with a
    normal exit. *)
Lemma myproject0_as_module_fails :
  exit_status (run_myscript Myproject0 PosixHost.in_repo
                 (module_launch "/repo" "/repo/myproject0/myscript.py"
                    "myproject0" PosixHost.site)) = 1
  /\ errors (run_myscript Myproject0 PosixHost.in_repo
               (module_launch "/repo" "/repo/myproject0/myscript.py"
                  "myproject0" PosixHost.site))
     = ["Traceback (most recent call last):";
        "ModuleNotFoundError: No module named 'myclass'"].
Proof. vm_compute. split; reflexivity. Qed.

(** C8, amended: every run of the entry point comes to an end, in one of
    three ways.  The import binds a class: thirteen lines are written and
    the exit is normal.  The import raises: nothing is written, the exit
    status is 1.  The import binds a module in place of the class: the line
    of the guard and the script block are written, then the call raises and
    the exit status is 1. *)
Theorem run_ends (v : Variant) (h : Host) (l : Launch) :
  (exit_status (run_myscript v h l) = 0
   /\ errors (run_myscript v h l) = []
   /\ exists c,
        output (run_myscript v h l)
        = ["myscript.py called directly"]
            ++ script_block h (main_globals l) (import_path v l)
            ++ ["MyClass initialized"]
            ++ class_block c)
  \/ (exit_status (run_myscript v h l) = 1
      /\ output (run_myscript v h l) = []
      /\ exists m,
           errors (run_myscript v h l) = traceback (ModuleNotFoundError m)
           \/ errors (run_myscript v h l) = traceback (ImportError m))
  \/ (exit_status (run_myscript v h l) = 1
      /\ output (run_myscript v h l)
         = ["myscript.py called directly"]
             ++ script_block h (main_globals l) (import_path v l)
      /\ errors (run_myscript v h l)
         = traceback (TypeError "'module' object is not callable")).
Proof.
  rewrite run_myscript_outcome. unfold outcome.
  destruct (snd (import_dependency h v _)) as [e|[c|]] eqn:E; simpl.
  - right. left. repeat split.
    destruct (import_raises h v _ e E) as [[m ->]|[m ->]]; exists m; auto.
  - left. repeat split. exists c. reflexivity.
  - right. right. repeat split.
Qed.

(** C9: myproject6/scripts/myscript.py is myproject0/myscript.py run after
    one entry, the join of the directory of the script with '..' and
    'classes', has been appended to the search path; the path is that way
    when the run ends, and the other programs leave it as they found it.
    When the run prints at all, it prints the search-path line of the
    lengthened path, which ends in the [repr] of the new entry. *)
Theorem search_path_append (h : Host) (l : Launch) (g : Globals) (st : State) :
  myproject6_myscript h g st
  = myproject0_myscript h g
      {| sys_path := sys_path st
                       ++ [Posixpath.join (Posixpath.dirname (__file__ g))
                             [".."; "classes"]];
         stdout := stdout st |}
  /\ final_path (run_myscript Myproject6 h l)
     = initial_path l
         ++ [Posixpath.join (Posixpath.dirname (main_file l)) [".."; "classes"]]
  /\ final_path (run_myscript Myproject0 h l) = initial_path l
  /\ final_path (run_myscript Myproject2 h l) = initial_path l
  /\ final_path (run_myclass l) = initial_path l
  /\ (output (run_myscript Myproject6 h l) <> [] ->
      exists pre,
        In ("sys.path: " +:+ pre
              +:+ repr h (Posixpath.join (Posixpath.dirname (main_file l))
                            [".."; "classes"])
              +:+ "]")
           (output (run_myscript Myproject6 h l))).
Proof.
  split; [reflexivity |].
  rewrite !run_myscript_outcome. unfold outcome.
  repeat split.
  - destruct (snd (import_dependency h Myproject6 _)) as [e|[c|]]; reflexivity.
  - destruct (snd (import_dependency h Myproject0 _)) as [e|[c|]]; reflexivity.
  - destruct (snd (import_dependency h Myproject2 _)) as [e|[c|]]; reflexivity.
  - intros Hout.
    destruct (concat_last ", "
                (repr h (Posixpath.join (Posixpath.dirname (main_file l))
                           [".."; "classes"]))
                (map (repr h) (initial_path l))) as [pre Hpre].
    exists ("[" +:+ pre).
    assert (Hline :
      "sys.path: " +:+ str_list h (import_path Myproject6 l)
      = "sys.path: " +:+ ("[" +:+ pre)
          +:+ repr h (Posixpath.join (Posixpath.dirname (main_file l))
                        [".."; "classes"])
          +:+ "]").
    { change (import_path Myproject6 l)
        with (initial_path l
                ++ [Posixpath.join (Posixpath.dirname (main_file l))
                      [".."; "classes"]]).
      unfold str_list. rewrite map_app.
      change (map (repr h)
                [Posixpath.join (Posixpath.dirname (main_file l)) [".."; "classes"]])
        with [repr h (Posixpath.join (Posixpath.dirname (main_file l))
                        [".."; "classes"])].
      rewrite Hpre, !append_assoc. reflexivity. }
    rewrite <- Hline.
    destruct (snd (import_dependency h Myproject6 _)) as [e|[c|]]; simpl in *.
    + congruence.
    + do 5 right. left. reflexivity.
    + do 5 right. left. reflexivity.
Qed.

Lemma search_path_append_witness :
  output (run_myscript Myproject6 PosixHost.in_repo
            (script_launch "/repo/myproject6/scripts/myscript.py" PosixHost.site))
    <> []
  /\ exists pre,
       In ("sys.path: " +:+ pre
             +:+ repr PosixHost.in_repo
                   (Posixpath.join
                      (Posixpath.dirname
                         (main_file (script_launch
                                       "/repo/myproject6/scripts/myscript.py"
                                       PosixHost.site)))
                      [".."; "classes"])
             +:+ "]")
          (output (run_myscript Myproject6 PosixHost.in_repo
                     (script_launch "/repo/myproject6/scripts/myscript.py"
                        PosixHost.site))).
Proof.
  assert (Hout : output (run_myscript Myproject6 PosixHost.in_repo
                   (script_launch "/repo/myproject6/scripts/myscript.py"
                      PosixHost.site)) <> [])
    by (vm_compute; discriminate).
  split; [exact Hout |].
  apply (search_path_append PosixHost.in_repo
           (script_launch "/repo/myproject6/scripts/myscript.py" PosixHost.site)
           (main_globals (script_launch "/repo/myproject6/scripts/myscript.py"
                            PosixHost.site))
           (initial_state (script_launch "/repo/myproject6/scripts/myscript.py"
                             PosixHost.site))).
  exact Hout.
Defined.

(** C10: myclass.py run as the program prints "myclass.py called directly",
    one creation notice and one class block, and exits with status 0; the
    header of the script block is no line of its output, and the search path
    is as it was. *)
Theorem myclass_run_directly (l : Launch) :
  run_myclass l
  = {| exit_status := 0;
       output := ["myclass.py called directly"; "MyClass initialized"]
                   ++ class_block (main_globals l);
       errors := [];
       final_path := initial_path l |}
  /\ ~ In "myscript attributes..." (output (run_myclass l)).
Proof.
  split; [reflexivity |].
  simpl. intros Hin.
  repeat (destruct Hin as [Hin|Hin]; [discriminate Hin |]).
  exact Hin.
Qed.

(** * Further properties of the modules *)

(** ** Modules that are loaded, not run *)

Lemma not_main (s : string) : s <> "__main__" -> (s =? "__main__") = false.
Proof. intros Hs. now apply String.eqb_neq. Qed.

Lemma main_keeps_path (h : Host) (g : Globals) (b : Binding) (st : State) :
  sys_path (fst (main h g b st)) = sys_path st.
Proof.
  destruct b as [c|]; [rewrite main_with_class | rewrite main_with_module];
    reflexivity.
Qed.

(** A script is its import statement, run after the append for myproject6,
    followed by the guard. *)
Lemma myscript_unfold (v : Variant) (h : Host) (g : Globals) (st : State) :
  myscript v h g st
  = (MyClass ← import_dependency h v; if_main h g MyClass)
      {| sys_path := match v with
                     | Myproject6 => sys_path st ++ [classes_dir g]
                     | _ => sys_path st
                     end;
         stdout := stdout st |}.
Proof. destruct v; destruct st; reflexivity. Qed.

(** X1: myclass.py loaded under any module name other than [__main__] runs to
    its end without writing a line and without touching the search path. *)
Theorem myclass_loaded_is_silent (g : Globals) (st : State) :
  __name__ g <> "__main__" ->
  myclass_py g st = (st, inr tt).
Proof.
  intros Hname. unfold myclass_py. rewrite (not_main _ Hname). reflexivity.
Qed.

Lemma myclass_loaded_is_silent_witness :
  __name__ {| __name__ := "myproject2.myclass"; __package__ := Some "myproject2";
              __file__ := "/repo/myproject2/myclass.py" |} <> "__main__"
  /\ myclass_py {| __name__ := "myproject2.myclass";
                   __package__ := Some "myproject2";
                   __file__ := "/repo/myproject2/myclass.py" |}
        {| sys_path := ["/repo"]; stdout := ["before"] |}
     = ({| sys_path := ["/repo"]; stdout := ["before"] |}, inr tt).
Proof.
  split; [discriminate |].
  apply (myclass_loaded_is_silent
           {| __name__ := "myproject2.myclass"; __package__ := Some "myproject2";
              __file__ := "/repo/myproject2/myclass.py" |}
           {| sys_path := ["/repo"]; stdout := ["before"] |}).
  discriminate.
Defined.

(** X2: a script loaded under any module name other than [__main__] writes
    nothing, because its guard skips [main]; it still runs its import
    statement, and myproject6/scripts/myscript.py still lengthens the search
    path by its entry. *)
Theorem myscript_loaded_is_silent (v : Variant) (h : Host) (g : Globals)
    (st : State) :
  __name__ g <> "__main__" ->
  stdout (fst (myscript v h g st)) = stdout st
  /\ sys_path (fst (myscript v h g st))
     = match v with
       | Myproject6 => sys_path st ++ [classes_dir g]
       | _ => sys_path st
       end
  /\ snd (myscript v h g st)
     = match snd (import_dependency h v
                    {| sys_path := match v with
                                   | Myproject6 => sys_path st ++ [classes_dir g]
                                   | _ => sys_path st
                                   end;
                       stdout := stdout st |}) with
       | inl e => inl e
       | inr _ => inr tt
       end.
Proof.
  intros Hname. rewrite myscript_unfold.
  set (st' := {| sys_path := _; stdout := stdout st |}).
  pose proof (import_keeps_state h v st') as Hst.
  unfold mbind, M_bind.
  destruct (import_dependency h v st') as [st'' [e|b]]; simpl in Hst; subst st''.
  - repeat split.
  - unfold if_main. rewrite (not_main _ Hname). repeat split.
Qed.

Lemma myscript_loaded_is_silent_witness :
  __name__ {| __name__ := "myscript"; __package__ := Some "";
              __file__ := "/repo/myproject6/scripts/myscript.py" |} <> "__main__"
  /\ stdout (fst (myscript Myproject6 PosixHost.in_repo
                    {| __name__ := "myscript"; __package__ := Some "";
                       __file__ := "/repo/myproject6/scripts/myscript.py" |}
                    {| sys_path := ["/elsewhere"]; stdout := [] |})) = [].
Proof.
  split; [discriminate |].
  apply (myscript_loaded_is_silent Myproject6 PosixHost.in_repo
           {| __name__ := "myscript"; __package__ := Some "";
              __file__ := "/repo/myproject6/scripts/myscript.py" |}
           {| sys_path := ["/elsewhere"]; stdout := [] |}).
  discriminate.
Defined.

(** X3: the import statement of a script writes nothing and leaves the
    search path as it is, whether it binds [MyClass] or raises: the class
    module it runs is not the program. *)
Theorem import_statement_is_silent (h : Host) (v : Variant) (st : State) :
  stdout (fst (import_dependency h v st)) = stdout st
  /\ sys_path (fst (import_dependency h v st)) = sys_path st.
Proof. rewrite import_keeps_state. split; reflexivity. Qed.

(** X4: [main] never changes the search path.  It writes twelve lines and
    returns when [MyClass] is a class; it raises exactly when [MyClass] is
    not one, after the six lines of the script block. *)
Theorem main_effect (h : Host) (g : Globals) (b : Binding) (st : State) :
  sys_path (fst (main h g b st)) = sys_path st
  /\ length (stdout (fst (main h g b st)))
     = length (stdout st) + match b with BoundClass _ => 12 | BoundModule => 6 end
  /\ snd (main h g b st)
     = match b with
       | BoundClass _ => inr tt
       | BoundModule => inl (TypeError "'module' object is not callable")
       end.
Proof.
  split; [apply main_keeps_path |].
  destruct b as [c|]; [rewrite main_with_class | rewrite main_with_module];
    simpl; rewrite length_app; split; reflexivity.
Qed.

(** ** What a run leaves behind *)

(** X5: the exit status of a run of the entry point is 0 or 1; it is 0
    exactly when standard error stays empty, and exactly when all thirteen
    lines were written. *)
Theorem exit_status_contract (v : Variant) (h : Host) (l : Launch) :
  (exit_status (run_myscript v h l) = 0 \/ exit_status (run_myscript v h l) = 1)
  /\ (exit_status (run_myscript v h l) = 0 <-> errors (run_myscript v h l) = [])
  /\ (exit_status (run_myscript v h l) = 0
      <-> length (output (run_myscript v h l)) = 13).
Proof.
  rewrite run_myscript_outcome. unfold outcome.
  destruct (snd (import_dependency h v _)) as [e|[c|]]; simpl;
    repeat split; auto; discriminate.
Qed.

(** X6: a run of the entry point that writes anything writes
    "myscript.py called directly" first and the header of the script block
    next. *)
Theorem output_starts_with_guard_line (v : Variant) (h : Host) (l : Launch) :
  output (run_myscript v h l) <> [] ->
  exists rest,
    output (run_myscript v h l)
    = "myscript.py called directly" :: "myscript attributes..." :: rest.
Proof.
  rewrite run_myscript_outcome. unfold outcome.
  destruct (snd (import_dependency h v _)) as [e|[c|]]; simpl; intros Hout.
  - congruence.
  - eexists. reflexivity.
  - eexists. reflexivity.
Qed.

Lemma output_starts_with_guard_line_witness :
  output (run_myscript Myproject2 PosixHost.in_repo
            (module_launch "/repo" "/repo/myproject2/myscript.py" "myproject2"
               PosixHost.site)) <> []
  /\ exists rest,
       output (run_myscript Myproject2 PosixHost.in_repo
                 (module_launch "/repo" "/repo/myproject2/myscript.py"
                    "myproject2" PosixHost.site))
       = "myscript.py called directly" :: "myscript attributes..." :: rest.
Proof.
  assert (Hout : output (run_myscript Myproject2 PosixHost.in_repo
                   (module_launch "/repo" "/repo/myproject2/myscript.py"
                      "myproject2" PosixHost.site)) <> [])
    by (vm_compute; discriminate).
  split; [exact Hout |].
  apply (output_starts_with_guard_line Myproject2 PosixHost.in_repo
           (module_launch "/repo" "/repo/myproject2/myscript.py" "myproject2"
              PosixHost.site)).
  exact Hout.
Defined.

(** X7: in a run whose dependency is located in the source file [f], the
    script reports itself as module [__main__] in its own file, and the
    object reports the module that defines its class: the dotted name the
    script imported, that name's package, and the file [f]. *)
Theorem blocks_name_their_own_module (v : Variant) (h : Host) (l : Launch)
    (f : string) :
  locate_dependency h v l = Some (SourceFile f) ->
  output (run_myscript v h l) !! 2 = Some "Module: __main__"
  /\ output (run_myscript v h l) !! 4 = Some ("File Path: " +:+ main_file l)
  /\ output (run_myscript v h l) !! 9
     = Some (match v with
             | Myproject2 => "Module: myproject2.myclass"
             | _ => "Module: myclass"
             end)
  /\ output (run_myscript v h l) !! 10
     = Some (match v with
             | Myproject2 => "Package: myproject2"
             | _ => "Package: "
             end)
  /\ output (run_myscript v h l) !! 11 = Some ("File Path: " +:+ f).
Proof.
  intros Hloc. rewrite (located_outcome v h l f Hloc).
  destruct v; repeat split.
Qed.

Lemma blocks_name_their_own_module_witness :
  locate_dependency PosixHost.in_repo Myproject2
    (module_launch "/repo" "/repo/myproject2/myscript.py" "myproject2"
       PosixHost.site)
  = Some (SourceFile "/repo/myproject2/myclass.py")
  /\ output (run_myscript Myproject2 PosixHost.in_repo
               (module_launch "/repo" "/repo/myproject2/myscript.py" "myproject2"
                  PosixHost.site)) !! 2
     = Some "Module: __main__".
Proof.
  split; [vm_compute; reflexivity |].
  apply (blocks_name_their_own_module Myproject2 PosixHost.in_repo
           (module_launch "/repo" "/repo/myproject2/myscript.py" "myproject2"
              PosixHost.site)
           "/repo/myproject2/myclass.py").
  vm_compute. reflexivity.
Defined.

(** ** Names that resolve to something else than the class module *)

(** X8: when the name [myclass] resolves to directories only (a namespace
    package) with no submodule [MyClass], the import of myproject0 and
    myproject6 raises [ImportError]: nothing is written and the exit status
    is 1. *)
Theorem directory_in_place_of_module (v : Variant) (h : Host) (l : Launch)
    (dirs : list string) :
  v <> Myproject2 ->
  find_spec h (import_path v l) "myclass" = Some (NamespacePackage dirs) ->
  find_spec h dirs "MyClass" = None ->
  run_myscript v h l
  = {| exit_status := 1;
       output := [];
       errors := ["Traceback (most recent call last):";
                  "ImportError: cannot import name 'MyClass' from 'myclass' (unknown location)"];
       final_path := import_path v l |}.
Proof.
  intros Hv Hpkg Hsub. rewrite run_myscript_outcome.
  unfold outcome, import_dependency, from_import_MyClass.
  destruct v; [| congruence |]; simpl dependency; exec.
  all: unfold import_path in Hpkg; rewrite Hpkg; simpl; rewrite Hsub; reflexivity.
Qed.

Lemma directory_in_place_of_module_witness :
  Myproject0 <> Myproject2
  /\ find_spec (PosixHost.host PosixHost.empty_directory_named_myclass ["work"])
       (import_path Myproject0 (script_launch "/work/myscript.py" PosixHost.site))
       "myclass"
     = Some (NamespacePackage ["/work/myclass"])
  /\ find_spec (PosixHost.host PosixHost.empty_directory_named_myclass ["work"])
       ["/work/myclass"] "MyClass" = None
  /\ exit_status (run_myscript Myproject0
                    (PosixHost.host PosixHost.empty_directory_named_myclass ["work"])
                    (script_launch "/work/myscript.py" PosixHost.site)) = 1.
Proof.
  split; [discriminate |].
  split; [vm_compute; reflexivity |].
  split; [vm_compute; reflexivity |].
  rewrite (directory_in_place_of_module Myproject0
             (PosixHost.host PosixHost.empty_directory_named_myclass ["work"])
             (script_launch "/work/myscript.py" PosixHost.site)
             ["/work/myclass"]).
  - reflexivity.
  - discriminate.
  - vm_compute. reflexivity.
  - vm_compute. reflexivity.
Defined.





(** ** The entry myproject6 appends to the search path *)

Lemma classes_dir_closed (g : Globals) :
  classes_dir g
  = if (Posixpath.dirname (__file__ g) =? "")
       || Posixpath.endswith_sep (Posixpath.dirname (__file__ g))
    then Posixpath.dirname (__file__ g) +:+ "../classes"
    else Posixpath.dirname (__file__ g) +:+ "/../classes".
Proof.
  unfold classes_dir, Posixpath.join, Posixpath.join_step. simpl fold_left.
  set (d := Posixpath.dirname (__file__ g)).
  change (Posixpath.startswith_sep "..") with false.
  change (Posixpath.startswith_sep "classes") with false.
  cbv iota.
  destruct ((d =? "") || Posixpath.endswith_sep d).
  - rewrite append_nonempty, endswith_sep_append.
    change (false || Posixpath.endswith_sep "..") with false. cbv iota.
    now rewrite !append_assoc.
  - change (d +:+ "/" +:+ "..") with (d +:+ "/..").
    rewrite append_nonempty, endswith_sep_append.
    change (false || Posixpath.endswith_sep "/..") with false. cbv iota.
    now rewrite !append_assoc.
Qed.

Lemma head_part_no_sep (p : string) :
  Posixpath.contains_sep p = false -> Posixpath.head_part p = "".
Proof.
  destruct p as [|c r]; [reflexivity |]. simpl.
  intros H. apply orb_false_iff in H as [Hc Hr]. now rewrite Hr, Hc.
Qed.

Lemma rstrip_sep_empty (s : string) :
  Posixpath.rstrip_sep s = "" -> Posixpath.all_sep s = true.
Proof.
  induction s as [|c r IH]; [reflexivity |]. simpl.
  destruct (Posixpath.rstrip_sep r) eqn:E; [| discriminate].
  destruct (Ascii.eqb c Posixpath.sep); [| discriminate].
  intros _. now rewrite IH.
Qed.

Lemma dirname_absolute (p : string) :
  Posixpath.startswith_sep p = true ->
  Posixpath.startswith_sep (Posixpath.dirname p) = true.
Proof.
  destruct p as [|c r]; [discriminate |]. simpl. intros Hc.
  assert (Hhead : exists t, Posixpath.head_part (String c r) = String c t).
  { simpl. destruct (Posixpath.contains_sep r); [eauto |].
    rewrite Hc. eauto. }
  destruct Hhead as [t Ht]. unfold Posixpath.dirname. rewrite Ht.
  destruct (negb (String c t =? "") && negb (Posixpath.all_sep (String c t)))
    eqn:E; [| exact Hc].
  apply andb_true_iff in E as [_ E]. apply negb_true_iff in E.
  simpl. destruct (Posixpath.rstrip_sep t) eqn:Et; [| exact Hc].
  apply rstrip_sep_empty in Et. simpl in E. rewrite Hc, Et in E. discriminate.
Qed.

(** X11: the entry that myproject6/scripts/myscript.py appends is the
    directory of [__file__] followed by "../classes", with a separator in
    between unless that directory is empty or ends in one; in every case it
    ends in "../classes". *)
Theorem appended_entry (g : Globals) :
  classes_dir g
  = (if (Posixpath.dirname (__file__ g) =? "")
        || Posixpath.endswith_sep (Posixpath.dirname (__file__ g))
     then Posixpath.dirname (__file__ g) +:+ "../classes"
     else Posixpath.dirname (__file__ g) +:+ "/../classes")
  /\ exists pre, classes_dir g = pre +:+ "../classes".
Proof.
  split; [apply classes_dir_closed |].
  rewrite classes_dir_closed.
  destruct ((Posixpath.dirname (__file__ g) =? "")
            || Posixpath.endswith_sep (Posixpath.dirname (__file__ g))).
  - eexists. reflexivity.
  - exists (Posixpath.dirname (__file__ g) +:+ "/").
    now rewrite append_assoc.
Qed.

(** X12: when [__file__] is a bare file name, without a separator, the
    appended entry is the relative path "../classes": which directory it
    names then depends on the working directory of the process. *)
Theorem appended_entry_of_bare_name (g : Globals) :
  Posixpath.contains_sep (__file__ g) = false ->
  classes_dir g = "../classes".
Proof.
  intros Hbare. rewrite classes_dir_closed.
  unfold Posixpath.dirname. rewrite (head_part_no_sep _ Hbare). reflexivity.
Qed.

Lemma appended_entry_of_bare_name_witness :
  Posixpath.contains_sep
    (__file__ {| __name__ := "__main__"; __package__ := None;
                 __file__ := "myscript.py" |}) = false
  /\ classes_dir {| __name__ := "__main__"; __package__ := None;
                    __file__ := "myscript.py" |} = "../classes".
Proof.
  split; [reflexivity |].
  apply (appended_entry_of_bare_name
           {| __name__ := "__main__"; __package__ := None;
              __file__ := "myscript.py" |}).
  reflexivity.
Defined.

(** X13: when [__file__] is an absolute path, so is the appended entry. *)
Theorem appended_entry_of_absolute_file (g : Globals) :
  Posixpath.startswith_sep (__file__ g) = true ->
  Posixpath.startswith_sep (classes_dir g) = true.
Proof.
  intros Habs. apply dirname_absolute in Habs.
  rewrite classes_dir_closed.
  destruct (Posixpath.dirname (__file__ g)) as [|c d]; [discriminate |].
  destruct ((String c d =? "") || Posixpath.endswith_sep (String c d));
    exact Habs.
Qed.

Lemma appended_entry_of_absolute_file_witness :
  Posixpath.startswith_sep
    (__file__ {| __name__ := "__main__"; __package__ := None;
                 __file__ := "/repo/myproject6/scripts/myscript.py" |}) = true
  /\ Posixpath.startswith_sep
       (classes_dir {| __name__ := "__main__"; __package__ := None;
                       __file__ := "/repo/myproject6/scripts/myscript.py" |})
     = true.
Proof.
  split; [reflexivity |].
  apply (appended_entry_of_absolute_file
           {| __name__ := "__main__"; __package__ := None;
              __file__ := "/repo/myproject6/scripts/myscript.py" |}).
  reflexivity.
Defined.

Lemma myscript_final_path (v : Variant) (h : Host) (g : Globals) (st : State) :
  sys_path (fst (myscript v h g st))
  = match v with
    | Myproject6 => sys_path st ++ [classes_dir g]
    | _ => sys_path st
    end.
Proof.
  rewrite myscript_unfold.
  set (st' := {| sys_path := _; stdout := stdout st |}).
  pose proof (import_keeps_state h v st') as Hst.
  unfold mbind, M_bind.
  destruct (import_dependency h v st') as [st'' [e|b]]; simpl in Hst; subst st''.
  - reflexivity.
  - unfold if_main. destruct (__name__ g =? "__main__"); [| reflexivity].
    unfold mbind, M_bind. simpl. rewrite main_keeps_path. reflexivity.
Qed.

(** X14: myproject6/scripts/myscript.py appends without looking whether the
    entry is there: when its body runs to its end and is run again in the
    same process, under any module name, the search path ends in two
    entries, one for each run. *)
Theorem append_accumulates (h : Host) (g1 g2 : Globals) (st : State) :
  snd (myproject6_myscript h g1 st) = inr tt ->
  sys_path (fst ((myproject6_myscript h g1 ;; myproject6_myscript h g2) st))
  = sys_path st ++ [classes_dir g1; classes_dir g2].
Proof.
  intros Hok. unfold mbind, M_bind.
  pose proof (myscript_final_path Myproject6 h g1 st) as H1.
  change (myscript Myproject6 h g1 st) with (myproject6_myscript h g1 st) in H1.
  destruct (myproject6_myscript h g1 st) as [st1 [e|[]]]; [discriminate |].
  simpl in H1.
  pose proof (myscript_final_path Myproject6 h g2 st1) as H2.
  change (myscript Myproject6 h g2 st1) with (myproject6_myscript h g2 st1) in H2.
  rewrite H2, H1, <- app_assoc. reflexivity.
Qed.

Lemma append_accumulates_witness :
  snd (myproject6_myscript PosixHost.in_repo
         {| __name__ := "myscript"; __package__ := Some "";
            __file__ := "/repo/myproject6/scripts/myscript.py" |}
         {| sys_path := ["/repo/myproject6/scripts"]; stdout := [] |}) = inr tt
  /\ sys_path
       (fst ((myproject6_myscript PosixHost.in_repo
                {| __name__ := "myscript"; __package__ := Some "";
                   __file__ := "/repo/myproject6/scripts/myscript.py" |} ;;
              myproject6_myscript PosixHost.in_repo
                {| __name__ := "myscript"; __package__ := Some "";
                   __file__ := "/repo/myproject6/scripts/myscript.py" |})
               {| sys_path := ["/repo/myproject6/scripts"]; stdout := [] |}))
     = ["/repo/myproject6/scripts"]
         ++ [classes_dir {| __name__ := "myscript"; __package__ := Some "";
                            __file__ := "/repo/myproject6/scripts/myscript.py" |};
             classes_dir {| __name__ := "myscript"; __package__ := Some "";
                            __file__ := "/repo/myproject6/scripts/myscript.py" |}].
Proof.
  split; [vm_compute; reflexivity |].
  apply (append_accumulates PosixHost.in_repo
           {| __name__ := "myscript"; __package__ := Some "";
              __file__ := "/repo/myproject6/scripts/myscript.py" |}
           {| __name__ := "myscript"; __package__ := Some "";
              __file__ := "/repo/myproject6/scripts/myscript.py" |}
           {| sys_path := ["/repo/myproject6/scripts"]; stdout := [] |}).
  vm_compute. reflexivity.
Defined.
